(** * The blog-post template and its page query

    A shallow embedding of [src/templates/blog-post.js]: the values the
    GraphQL layer hands to the component, property access with the faults
    JavaScript raises on [null] and [undefined], the [||] operator, the
    React element tree the component returns, and the page query
    [BlogPostBySlug] that selects one markdown node by slug. *)

From Stdlib Require Import String Ascii List Bool Arith Lia.
Import ListNotations.
Open Scope string_scope.
Set Warnings "-register-all".

(** ** JavaScript values and faults *)

Module JS.

(** The values that reach the template: the JSON a GraphQL query yields
    (null, strings, objects) and [undefined], the result of reading a
    property an object does not have. *)
Inductive value : Type :=
| VUndefined
| VNull
| VStr (s : string)
| VObj (fields : list (string * value)).

(** [TypeError base key]: "Cannot read properties of [base] (reading
    '[key]')", thrown by a property access on [null] or [undefined]. *)
Inductive exn : Type :=
| TypeError (base : value) (key : string).

Inductive result (A : Type) : Type :=
| Ok (a : A)
| Throw (e : exn).
Arguments Ok {A} a.
Arguments Throw {A} e.

Definition ret {A} (a : A) : result A := Ok a.

Definition bind {A B} (m : result A) (k : A -> result B) : result B :=
  match m with
  | Ok a => k a
  | Throw e => Throw e
  end.

Definition fmap {A B} (f : A -> B) (m : result A) : result B :=
  bind m (fun a => ret (f a)).

Fixpoint lookup (fields : list (string * value)) (key : string) : option value :=
  match fields with
  | [] => None
  | (k, v) :: rest => if String.eqb k key then Some v else lookup rest key
  end.

(** [base.key] *)
Definition get (base : value) (key : string) : result value :=
  match base with
  | VUndefined | VNull => Throw (TypeError base key)
  | VStr _ => Ok VUndefined
  | VObj fields =>
      match lookup fields key with
      | Some v => Ok v
      | None => Ok VUndefined
      end
  end.

(** ToBoolean on the values above: [undefined], [null] and the empty
    string are falsy, every other string and every object is truthy. *)
Definition truthy (v : value) : bool :=
  match v with
  | VUndefined | VNull => false
  | VStr s => negb (String.eqb s "")
  | VObj _ => true
  end.

(** [a || b], with [b] evaluated only when [a] is falsy. *)
Definition or_else (a : value) (b : result value) : result value :=
  if truthy a then Ok a else b.

Definition nullish (v : value) : bool :=
  match v with
  | VUndefined | VNull => true
  | _ => false
  end.

End JS.

Import JS.

Notation "x <- m ;; k" := (JS.bind m (fun x => k))
  (at level 61, m at next level, right associativity).

(** ** React elements *)

Inductive elementType : Type :=
| Layout
| SEO
| Host (tag : string).

Inductive element : Type :=
| Element (type : elementType) (props : list (string * value)) (children : list element)
| Expr (v : value).

(** The imported CSS module [blog-post.module.scss]: an object from class
    names to generated names.  It is the one binding of the module scope
    whose properties the component reads. *)
Record moduleScope : Type := { styles : list (string * value) }.

Definition className (scope : moduleScope) (key : string) : value :=
  match lookup scope.(styles) key with
  | Some v => v
  | None => VUndefined
  end.

(** ** The component *)

(** [BlogPostTemplate = ({ data, location }) => ...].  The accesses are
    sequenced in JavaScript's evaluation order: the two [const]s, then the
    props and children of the JSX from the outside in and left to right. *)
Definition BlogPostTemplate (scope : moduleScope) (data location : value) : result element :=
  post <- get data "markdownRemark" ;;
  site <- get data "site" ;;
  siteMetadata <- get site "siteMetadata" ;;
  siteTitle <- get siteMetadata "title" ;;
  fm1 <- get post "frontmatter" ;;
  seoTitle <- get fm1 "title" ;;
  fm2 <- get post "frontmatter" ;;
  description <- get fm2 "description" ;;
  seoDescription <- or_else description (get post "excerpt") ;;
  fm3 <- get post "frontmatter" ;;
  headerTitle <- get fm3 "title" ;;
  fm4 <- get post "frontmatter" ;;
  headerDate <- get fm4 "date" ;;
  html <- get post "html" ;;
  ret (Element Layout [("location", location); ("title", siteTitle)]
        [ Element SEO [("title", seoTitle); ("description", seoDescription)] [];
          Element (Host "article") []
            [ Element (Host "header") [("className", className scope "Header")]
                [ Element (Host "h1") [("className", className scope "HeaderTitle")]
                    [Expr headerTitle];
                  Element (Host "p") [("className", className scope "HeaderDate")]
                    [Expr headerDate] ];
              Element (Host "section")
                [("dangerouslySetInnerHTML", VObj [("__html", html)])] [];
              Element (Host "footer") [] [] ] ]).

(** ** What a rendered page carries

    The parts of the element tree the rest of the site consumes: the props
    handed to [Layout] and to [SEO], the two texts of the header and the
    markup injected into the body section. *)

Definition propsOf (e : element) : list (string * value) :=
  match e with
  | Element _ props _ => props
  | Expr _ => []
  end.

Definition childrenOf (e : element) : list element :=
  match e with
  | Element _ _ children => children
  | Expr _ => []
  end.

Definition elementType_eqb (a b : elementType) : bool :=
  match a, b with
  | Layout, Layout => true
  | SEO, SEO => true
  | Host s, Host t => String.eqb s t
  | _, _ => false
  end.

Fixpoint child (t : elementType) (children : list element) : element :=
  match children with
  | [] => Expr VUndefined
  | Element t' props cs :: rest =>
      if elementType_eqb t t' then Element t' props cs else child t rest
  | Expr _ :: rest => child t rest
  end.

Definition prop (e : element) (key : string) : value :=
  match lookup (propsOf e) key with
  | Some v => v
  | None => VUndefined
  end.

Definition textOf (e : element) : value :=
  match childrenOf e with
  | [Expr v] => v
  | _ => VUndefined
  end.

Record headerPayload : Type := { headerTitle : value; headerDate : value }.

Record payload : Type := {
  layoutProps : list (string * value);
  seo : list (string * value);
  header : headerPayload;
  bodyHtml : value
}.

Definition payloadOf (page : element) : payload :=
  let article := child (Host "article") (childrenOf page) in
  let hd := child (Host "header") (childrenOf article) in
  {| layoutProps := propsOf page;
     seo := propsOf (child SEO (childrenOf page));
     header :=
       {| headerTitle := textOf (child (Host "h1") (childrenOf hd));
          headerDate := textOf (child (Host "p") (childrenOf hd)) |};
     bodyHtml :=
       match prop (child (Host "section") (childrenOf article)) "dangerouslySetInnerHTML" with
       | VObj inner =>
           match lookup inner "__html" with Some v => v | None => VUndefined end
       | _ => VUndefined
       end |}.

(** The description prop of the [SEO] element of a rendered page. *)
Definition seoDescription (rendered : result element) : result (option value) :=
  fmap (fun page => lookup (payloadOf page).(seo) "description") rendered.

(** ** The content graph and the page query *)

Inductive Month : Type :=
| January | February | March | April | May | June
| July | August | September | October | November | December.

Record Date : Type := { year : nat; month : Month; day : nat }.

(** One markdown node: the front-matter fields the query selects, the slug
    stored under [fields.slug] and the markdown body. *)
Record ContentRecord : Type := {
  id : string;
  slug : string;
  title : string;
  date : Date;
  description : option string;
  rawBody : string
}.

Record SiteMetadata : Type := { siteTitle : string }.

(** The field resolvers of the markdown transformer, which the query calls
    with the arguments written in it. *)
Class Transformer : Type := {
  deriveExcerpt : string -> nat -> string;
  renderHtml : string -> string;
  formatDate : string -> Date -> string
}.

(** [markdownRemark(fields: { slug: { eq: $slug } })]: the first node whose
    slug equals the argument, and nothing when there is none. *)
Definition getBySlug (records : list ContentRecord) (s : string) : option ContentRecord :=
  find (fun r => String.eqb r.(slug) s) records.

Section Query.
Context {T : Transformer}.

(** The selection set of [markdownRemark] on one node. *)
Definition selectPost (r : ContentRecord) : value :=
  VObj [ ("id", VStr r.(id));
         ("excerpt", VStr (deriveExcerpt r.(rawBody) 160));
         ("html", VStr (renderHtml r.(rawBody)));
         ("frontmatter",
           VObj [ ("title", VStr r.(title));
                  ("date", VStr (formatDate "MMMM DD, YYYY" r.(date)));
                  ("description",
                    match r.(description) with
                    | Some d => VStr d
                    | None => VNull
                    end) ]) ].

(** The [data] object of a query whose node lookup gave [found]. *)
Definition resolve (site : SiteMetadata) (found : option ContentRecord) : value :=
  VObj [ ("site", VObj [("siteMetadata", VObj [("title", VStr site.(siteTitle))])]);
         ("markdownRemark",
           match found with
           | Some r => selectPost r
           | None => VNull
           end) ].

(** [query BlogPostBySlug($slug: String!)] *)
Definition pageQuery (site : SiteMetadata) (records : list ContentRecord) (s : string) : value :=
  resolve site (getBySlug records s).

End Query.

(** ** The indexer's derivations

    The template's source holds the query and the component; the
    derivations the query asks for (excerpt, date display, slugs) are
    performed by the indexing side.  They are written here after their
    description, for the statements that are about them. *)

(** Modelled from the spec: the excerpt derivation of the markdown
    transformer, [deriveExcerpt] below and the steps it is made of. *)
Module Excerpt.

Definition isSpace (c : ascii) : bool :=
  match nat_of_ascii c with
  | 9 | 10 | 11 | 12 | 13 | 32 => true
  | _ => false
  end.

(** Every run of whitespace becomes one space. *)
Fixpoint collapseWhitespace (inRun : bool) (text : list ascii) : list ascii :=
  match text with
  | [] => []
  | c :: rest =>
      if isSpace c
      then (if inRun then collapseWhitespace true rest
            else " "%char :: collapseWhitespace true rest)
      else c :: collapseWhitespace false rest
  end.

(** [dropTrailing p l]: [l] without its longest suffix of characters
    satisfying [p]. *)
Fixpoint dropTrailing (p : ascii -> bool) (l : list ascii) : list ascii :=
  match l with
  | [] => []
  | c :: rest =>
      match dropTrailing p rest with
      | [] => if p c then [] else [c]
      | kept => c :: kept
      end
  end.

Definition isWordChar (c : ascii) : bool := negb (isSpace c).

(** The text cut to at most [maxLength] characters.  When the cut would
    fall inside a word, the partial word and the spaces before it go. *)
Definition truncateWords (text : list ascii) (maxLength : nat) : list ascii :=
  if Nat.leb (List.length text) maxLength then text
  else
    match nth_error text maxLength with
    | Some next =>
        if isSpace next then firstn maxLength text
        else dropTrailing isSpace (dropTrailing isWordChar (firstn maxLength text))
    | None => firstn maxLength text
    end.

(** The plain text an excerpt is cut from. *)
Definition plainText (stripMarkup : string -> string) (rawBody : string) : string :=
  string_of_list_ascii
    (collapseWhitespace false (list_ascii_of_string (stripMarkup rawBody))).

(** Modelled from the spec: [deriveExcerpt], the excerpt resolver of the
    markdown transformer, of which the source has only the call
    [excerpt(pruneLength: 160)].  It "strips markdown markup, collapses
    whitespace, truncates to maxLength characters without breaking
    mid-word, and returns the result"; which characters count as markup is
    left to [stripMarkup]. *)
Definition deriveExcerpt (stripMarkup : string -> string) (rawBody : string)
    (maxLength : nat) : string :=
  string_of_list_ascii
    (truncateWords (list_ascii_of_string (plainText stripMarkup rawBody)) maxLength).

Fixpoint lastChar (s : list ascii) : option ascii :=
  match s with
  | [] => None
  | c :: rest =>
      match rest with
      | [] => Some c
      | _ :: _ => lastChar rest
      end
  end.

(** A cut between [before] and [after] splits a word when both sides of it
    are word characters. *)
Definition splitsWordAt (before after : list ascii) : bool :=
  match lastChar before, after with
  | Some a, b :: _ => isWordChar a && isWordChar b
  | _, _ => false
  end.

Definition splitsWord (before after : string) : bool :=
  splitsWordAt (list_ascii_of_string before) (list_ascii_of_string after).

End Excerpt.

(** Modelled from the spec: the display of a calendar date under a format
    string, [formatDate] below, for the tokens the query's pattern uses. *)
Module DisplayDate.

Inductive token : Type :=
| MMMM
| DD
| YYYY
| Lit (c : ascii).

Fixpoint tokenize (formatString : string) : list token :=
  match formatString with
  | String "M"%char (String "M"%char (String "M"%char (String "M"%char rest))) =>
      MMMM :: tokenize rest
  | String "D"%char (String "D"%char rest) => DD :: tokenize rest
  | String "Y"%char (String "Y"%char (String "Y"%char (String "Y"%char rest))) =>
      YYYY :: tokenize rest
  | String c rest => Lit c :: tokenize rest
  | EmptyString => []
  end.

Definition monthName (m : Month) : string :=
  match m with
  | January => "January" | February => "February" | March => "March"
  | April => "April" | May => "May" | June => "June"
  | July => "July" | August => "August" | September => "September"
  | October => "October" | November => "November" | December => "December"
  end.

Definition digit (n : nat) : ascii := ascii_of_nat (48 + n mod 10).

(** The [width] lowest decimal digits of [n], zeros in front. *)
Fixpoint zeroPad (width n : nat) : string :=
  match width with
  | 0 => ""
  | S w => zeroPad w (n / 10) ++ String (digit n) ""
  end.

Definition renderToken (d : Date) (t : token) : string :=
  match t with
  | MMMM => monthName d.(month)
  | DD => zeroPad 2 d.(day)
  | YYYY => zeroPad 4 d.(year)
  | Lit c => String c ""
  end.

(** Modelled from the spec: the date resolver behind
    [date(formatString: "MMMM DD, YYYY")], of which the source has only the
    call.  The pattern stands for "full month name, zero-padded day,
    four-digit year"; every other character of it is copied. *)
Definition formatDate (formatString : string) (d : Date) : string :=
  String.concat "" (map (renderToken d) (tokenize formatString)).

Definition isDigit (c : ascii) : bool :=
  Nat.leb 48 (nat_of_ascii c) && Nat.leb (nat_of_ascii c) 57.

(** The number a string of decimal digits denotes. *)
Definition readDecimal (s : string) : nat :=
  fold_left (fun acc c => 10 * acc + (nat_of_ascii c - 48)) (list_ascii_of_string s) 0.

Definition validDate (d : Date) : Prop :=
  1 <= d.(day) <= 31 /\ d.(year) < 100 * 100.

End DisplayDate.

(** Modelled from the spec: the content store and the indexer's pass over
    it, [indexAll] below. *)
Module Indexer.



Section Index.
Variable slugOf : string -> string.



End Index.

End Indexer.

(** The transformer whose excerpt and date resolvers are the two above. *)
Definition describedTransformer (stripMarkup render : string -> string) : Transformer :=
  {| deriveExcerpt := Excerpt.deriveExcerpt stripMarkup;
     renderHtml := render;
     formatDate := DisplayDate.formatDate |}.

(** ** Sample content: the two posts of the site *)

Definition cookieJarPost : ContentRecord :=
  {| id := "post-1";
     slug := "/manage-http-cookie-in-go-with-cookie-jar/";
     title := "Manage HTTP Cookie in Go with Cookie Jar";
     date := {| year := 2021; month := February; day := 6 |};
     description := Some "Manage HTTP Cookie in Go with Cookie Jar";
     rawBody := "Go's standard HTTP library provides an interface to manage the storage of cookies in HTTP requests." |}.

Definition reusePost : ContentRecord :=
  {| id := "post-2";
     slug := "/how-to-reuse-http-connection-in-go/";
     title := "How to Reuse HTTP Connection in Go";
     date := {| year := 2021; month := April; day := 7 |};
     description := Some "Reuse HTTP Connection in Go";
     rawBody := "Let's take a look at the following program." |}.

(** [reusePost] with its description left empty. *)
Definition undescribedPost : ContentRecord :=
  {| id := "post-3";
     slug := "/untitled/";
     title := "How to Reuse HTTP Connection in Go";
     date := {| year := 2021; month := April; day := 7 |};
     description := Some "";
     rawBody := "Let's take a look at the following program." |}.

(** The cookie-jar post without a description, its body the opening
    paragraph. *)
Definition plainCookieJarPost : ContentRecord :=
  {| id := "post-4";
     slug := "/cookie-jar/";
     title := "Cookie Jar";
     date := {| year := 2021; month := February; day := 6 |};
     description := None;
     rawBody := "Go's standard HTTP library provides an interface to manage the storage of cookies in HTTP requests.
If we provide a jar to http.Client, the jar is used to insert relevant cookies into every request.
The jar is also updated with the cookie values of every response." |}.

Definition sampleSite : SiteMetadata := {| siteTitle := "Husni Munaya" |}.

Definition sampleScope : moduleScope :=
  {| styles := [ ("Header", VStr "blog-post-module--Header");
                 ("HeaderTitle", VStr "blog-post-module--HeaderTitle");
                 ("HeaderDate", VStr "blog-post-module--HeaderDate") ] |}.

Definition sampleLocation : value := VObj [("pathname", VStr "/")].

Definition sampleTransformer : Transformer :=
  describedTransformer (fun s => s) (fun s => "<p>" ++ s ++ "</p>").

(** The page of [reusePost] under the sample scope and transformer. *)
Definition samplePage : element :=
  Element Layout [("location", sampleLocation); ("title", VStr "Husni Munaya")]
    [ Element SEO [ ("title", VStr "How to Reuse HTTP Connection in Go");
                    ("description", VStr "Reuse HTTP Connection in Go") ] [];
      Element (Host "article") []
        [ Element (Host "header") [("className", VStr "blog-post-module--Header")]
            [ Element (Host "h1") [("className", VStr "blog-post-module--HeaderTitle")]
                [Expr (VStr "How to Reuse HTTP Connection in Go")];
              Element (Host "p") [("className", VStr "blog-post-module--HeaderDate")]
                [Expr (VStr "April 07, 2021")] ];
          Element (Host "section")
            [("dangerouslySetInnerHTML",
               VObj [("__html", VStr "<p>Let's take a look at the following program.</p>")])]
            [];
          Element (Host "footer") [] [] ] ].



Definition sampleRecords : list ContentRecord :=
  [ {| id := "manage-http-cookie-in-go-with-cookie-jar/";
       slug := "/manage-http-cookie-in-go-with-cookie-jar/";
       title := "Manage HTTP Cookie in Go with Cookie Jar";
       date := {| year := 2021; month := February; day := 6 |};
       description := Some "Manage HTTP Cookie in Go with Cookie Jar";
       rawBody := "Go's standard HTTP library provides an interface to manage the storage of cookies in HTTP requests." |};
    {| id := "how-to-reuse-http-connection-in-go/";
       slug := "/how-to-reuse-http-connection-in-go/";
       title := "How to Reuse HTTP Connection in Go";
       date := {| year := 2021; month := April; day := 7 |};
       description := Some "Reuse HTTP Connection in Go";
       rawBody := "Let's take a look at the following program." |} ].





(** Query data with the objects the component reads through and none of
    the fields, and the page it renders to. *)
Definition bareData : value :=
  VObj [ ("site", VObj [("siteMetadata", VObj [])]);
         ("markdownRemark", VObj [("frontmatter", VObj [])]) ].

Definition barePage : element :=
  Element Layout [("location", sampleLocation); ("title", VUndefined)]
    [ Element SEO [("title", VUndefined); ("description", VUndefined)] [];
      Element (Host "article") []
        [ Element (Host "header") [("className", VStr "blog-post-module--Header")]
            [ Element (Host "h1") [("className", VStr "blog-post-module--HeaderTitle")]
                [Expr VUndefined];
              Element (Host "p") [("className", VStr "blog-post-module--HeaderDate")]
                [Expr VUndefined] ];
          Element (Host "section")
            [("dangerouslySetInnerHTML", VObj [("__html", VUndefined)])] [];
          Element (Host "footer") [] [] ] ].

(** * Properties of the component *)

(** ** Running the component *)

Ltac run_template :=
  repeat match goal with
         | |- context [JS.bind (get ?base ?key) _] =>
             destruct (get base key) eqn:?; cbn [JS.bind]; try reflexivity
         | |- context [JS.bind (or_else ?a ?b) _] =>
             destruct (or_else a b) eqn:?; cbn [JS.bind]; try reflexivity
         end.

(** A page comes out only when every access succeeded; its payload is made
    of the values read. *)
Lemma BlogPostTemplate_inv (scope : moduleScope) (data location : value) (page : element) :
  BlogPostTemplate scope data location = Ok page ->
  exists post site sm siteName fm name desc shown dateText html,
    get data "markdownRemark" = Ok post /\
    get data "site" = Ok site /\
    get site "siteMetadata" = Ok sm /\
    get sm "title" = Ok siteName /\
    get post "frontmatter" = Ok fm /\
    get fm "title" = Ok name /\
    get fm "description" = Ok desc /\
    or_else desc (get post "excerpt") = Ok shown /\
    get fm "date" = Ok dateText /\
    get post "html" = Ok html /\
    payloadOf page =
      {| layoutProps := [("location", location); ("title", siteName)];
         seo := [("title", name); ("description", shown)];
         header := {| headerTitle := name; headerDate := dateText |};
         bodyHtml := html |}.
Proof.
  unfold BlogPostTemplate.
  destruct (get data "markdownRemark") as [post|] eqn:Hpost; cbn [JS.bind]; [|discriminate].
  destruct (get data "site") as [site|] eqn:Hsite; cbn [JS.bind]; [|discriminate].
  destruct (get site "siteMetadata") as [sm|] eqn:Hsm; cbn [JS.bind]; [|discriminate].
  destruct (get sm "title") as [siteName|] eqn:Hname; cbn [JS.bind]; [|discriminate].
  destruct (get post "frontmatter") as [fm|] eqn:Hfm; cbn [JS.bind]; [|discriminate].
  destruct (get fm "title") as [name|] eqn:Htitle; cbn [JS.bind]; [|discriminate].
  destruct (get fm "description") as [desc|] eqn:Hdesc; cbn [JS.bind]; [|discriminate].
  destruct (or_else desc (get post "excerpt")) as [shown|] eqn:Hshown;
    cbn [JS.bind]; [|discriminate].
  destruct (get fm "date") as [dateText|] eqn:Hdate; cbn [JS.bind]; [|discriminate].
  destruct (get post "html") as [html|] eqn:Hhtml; cbn [JS.bind]; [|discriminate].
  intros H; injection H as <-.
  exists post, site, sm, siteName, fm, name, desc, shown, dateText, html.
  repeat (split; [first [assumption | reflexivity]|]). reflexivity.
Qed.

Lemma get_Ok_not_nullish (base : value) (key : string) (v : value) :
  get base key = Ok v -> nullish base = false.
Proof. destruct base; simpl; intros H; try discriminate; reflexivity. Qed.

Lemma get_nullish (base : value) (key : string) :
  nullish base = true -> get base key = Throw (TypeError base key).
Proof. destruct base; simpl; intros H; try discriminate; reflexivity. Qed.

Section Found.
Context {T : Transformer}.
Variables (scope : moduleScope) (site : SiteMetadata) (location : value).

(** A record the query found always gives a page, with this payload. *)
Lemma page_of_found (r : ContentRecord) :
  exists page,
    BlogPostTemplate scope (resolve site (Some r)) location = Ok page /\
    payloadOf page =
      {| layoutProps := [("location", location); ("title", VStr site.(siteTitle))];
         seo := [ ("title", VStr r.(title));
                  ("description",
                    VStr match r.(description) with
                         | Some d =>
                             if String.eqb d "" then deriveExcerpt r.(rawBody) 160 else d
                         | None => deriveExcerpt r.(rawBody) 160
                         end) ];
         header :=
           {| headerTitle := VStr r.(title);
              headerDate := VStr (formatDate "MMMM DD, YYYY" r.(date)) |};
         bodyHtml := VStr (renderHtml r.(rawBody)) |}.
Proof.
  unfold BlogPostTemplate, resolve, selectPost, or_else. cbn.
  destruct (description r) as [d|]; cbn; [destruct (String.eqb d "")|];
    eexists; split; reflexivity.
Qed.

(** The query's answer for a slug no record has. *)
Lemma render_missing :
  BlogPostTemplate scope (resolve site None) location =
  Throw (TypeError VNull "frontmatter").
Proof. reflexivity. Qed.

End Found.

Lemma getBySlug_none (records : list ContentRecord) (s : string) :
  (forall r, In r records -> r.(slug) <> s) -> getBySlug records s = None.
Proof.
  unfold getBySlug. induction records as [|r rest IH]; intros Hno; simpl; [reflexivity|].
  destruct (String.eqb (slug r) s) eqn:E.
  - apply String.eqb_eq in E. exfalso. apply (Hno r); [left; reflexivity | exact E].
  - apply IH. intros r' Hin. apply Hno. right. exact Hin.
Qed.


(** ** The description handed to SEO *)

(** C1.  For every content record the description given to [SEO] is the
    record's own description, unchanged, when that is a non-empty string,
    and the 160-character excerpt of its body when the description is
    absent or is the empty string; the empty and the absent description
    give the same result. *)
Theorem seo_description_fallback {T : Transformer} (scope : moduleScope)
    (site : SiteMetadata) (location : value) (r : ContentRecord) :
  let shown := seoDescription (BlogPostTemplate scope (resolve site (Some r)) location) in
  (forall d, r.(description) = Some d -> d <> "" -> shown = Ok (Some (VStr d))) /\
  (r.(description) = None \/ r.(description) = Some "" ->
   shown = Ok (Some (VStr (deriveExcerpt r.(rawBody) 160)))).
Proof.
  cbn zeta. unfold seoDescription.
  destruct (page_of_found scope site location r) as (page & -> & Hp).
  cbn [fmap JS.bind ret]. rewrite Hp. cbn [seo lookup String.eqb Ascii.eqb Bool.eqb].
  split.
  - intros d Hd Hne. rewrite Hd.
    destruct (String.eqb d "") eqn:E; [|reflexivity].
    apply String.eqb_eq in E. contradiction.
  - intros [Hd | Hd]; rewrite Hd; reflexivity.
Qed.

Lemma seo_description_fallback_witness :
  seoDescription
    (BlogPostTemplate sampleScope (resolve (T:=sampleTransformer) sampleSite (Some reusePost))
       sampleLocation)
  = Ok (Some (VStr "Reuse HTTP Connection in Go")) /\
  seoDescription
    (BlogPostTemplate sampleScope
       (resolve (T:=sampleTransformer) sampleSite (Some undescribedPost)) sampleLocation)
  = Ok (Some (VStr "Let's take a look at the following program.")).
Proof.
  split.
  - apply (proj1 (seo_description_fallback (T:=sampleTransformer) sampleScope sampleSite
                    sampleLocation reusePost) "Reuse HTTP Connection in Go").
    + reflexivity.
    + discriminate.
  - apply (proj2 (seo_description_fallback (T:=sampleTransformer) sampleScope sampleSite
                    sampleLocation undescribedPost)).
    right. reflexivity.
Defined.

(** ** A slug without a record *)

(** C3.  For a slug that no record carries, the lookup gives no record, and
    rendering the query's answer produces no page: the component throws. *)
Theorem missing_slug_is_fatal {T : Transformer} (scope : moduleScope)
    (site : SiteMetadata) (records : list ContentRecord) (s : string) (location : value) :
  (forall r, In r records -> r.(slug) <> s) ->
  getBySlug records s = None /\
  BlogPostTemplate scope (pageQuery site records s) location =
    Throw (TypeError VNull "frontmatter").
Proof.
  intros Hno. pose proof (getBySlug_none records s Hno) as Hnone.
  split; [exact Hnone|].
  unfold pageQuery. rewrite Hnone. apply render_missing.
Qed.

Lemma missing_slug_is_fatal_witness :
  getBySlug [cookieJarPost; reusePost] "/no-such-post/" = None /\
  BlogPostTemplate sampleScope
    (pageQuery (T:=sampleTransformer) sampleSite [cookieJarPost; reusePost] "/no-such-post/")
    sampleLocation
  = Throw (TypeError VNull "frontmatter").
Proof.
  apply (missing_slug_is_fatal (T:=sampleTransformer)).
  intros r [<- | [<- | []]]; discriminate.
Defined.

(** ** The body markup *)

(** C7.  Whenever a page is produced, the markup injected into its body
    section is the value of the [html] field of the queried post, as it
    is. *)
Theorem body_html_verbatim (scope : moduleScope) (data location : value) (page : element) :
  BlogPostTemplate scope data location = Ok page ->
  exists post,
    get data "markdownRemark" = Ok post /\
    get post "html" = Ok (payloadOf page).(bodyHtml).
Proof.
  intros H. apply BlogPostTemplate_inv in H.
  destruct H as (post & site & sm & siteName & fm & name & desc & shown & dateText & html
                 & Hpost & _ & _ & _ & _ & _ & _ & _ & _ & Hhtml & ->).
  exists post. split; [exact Hpost | exact Hhtml].
Qed.

Lemma body_html_verbatim_witness :
  exists post,
    get (resolve (T:=sampleTransformer) sampleSite (Some reusePost)) "markdownRemark" = Ok post /\
    get post "html" = Ok (VStr "<p>Let's take a look at the following program.</p>").
Proof.
  apply (body_html_verbatim sampleScope
           (resolve (T:=sampleTransformer) sampleSite (Some reusePost))
           sampleLocation samplePage).
  reflexivity.
Defined.

(** ** The unguarded reads of the post *)

(** C8.  The component yields a page only if [data.markdownRemark] is
    present.  When it is [null] (or [undefined]) the evaluation ends in a
    thrown TypeError of a property read; no value is returned in its
    place. *)
Theorem template_requires_post (scope : moduleScope) (data location : value) :
  (forall page,
      BlogPostTemplate scope data location = Ok page ->
      exists post, get data "markdownRemark" = Ok post /\ nullish post = false) /\
  (forall post,
      get data "markdownRemark" = Ok post -> nullish post = true ->
      exists base key,
        BlogPostTemplate scope data location = Throw (TypeError base key)).
Proof.
  split.
  - intros page H. apply BlogPostTemplate_inv in H.
    destruct H as (post & site & sm & siteName & fm & name & desc & shown & dateText & html
                   & Hpost & _ & _ & _ & Hfm & _).
    exists post. split; [exact Hpost|].
    exact (get_Ok_not_nullish _ _ _ Hfm).
  - intros post Hpost Hnull. unfold BlogPostTemplate.
    rewrite Hpost. cbn [JS.bind].
    rewrite (get_nullish post "frontmatter" Hnull).
    destruct (get data "site") as [site|[b k]]; cbn [JS.bind]; [|eauto].
    destruct (get site "siteMetadata") as [sm|[b k]]; cbn [JS.bind]; [|eauto].
    destruct (get sm "title") as [siteName|[b k]]; cbn [JS.bind]; eauto.
Qed.

Lemma template_requires_post_witness :
  (exists post,
      get (resolve (T:=sampleTransformer) sampleSite (Some reusePost)) "markdownRemark" = Ok post /\
      nullish post = false) /\
  (exists base key,
      BlogPostTemplate sampleScope (resolve (T:=sampleTransformer) sampleSite None)
        sampleLocation
      = Throw (TypeError base key)).
Proof.
  split.
  - apply (proj1 (template_requires_post sampleScope
                    (resolve (T:=sampleTransformer) sampleSite (Some reusePost))
                    sampleLocation) samplePage).
    reflexivity.
  - apply (proj2 (template_requires_post sampleScope
                    (resolve (T:=sampleTransformer) sampleSite None) sampleLocation) VNull).
    + reflexivity.
    + reflexivity.
Defined.

(** ** The two titles *)



(** ** Independence from the module scope *)

(** C10.  The payload of a page (the props of [Layout] and of [SEO], the
    header and the body markup), or the fault raised instead, is determined
    by [data] and [location]: it is the same under any two module
    scopes. *)
Theorem template_reads_only_arguments (scope1 scope2 : moduleScope) (data location : value) :
  fmap payloadOf (BlogPostTemplate scope1 data location) =
  fmap payloadOf (BlogPostTemplate scope2 data location).
Proof.
  unfold BlogPostTemplate. run_template.
Qed.

(** * Properties of the indexer's derivations *)

(** ** Excerpts *)

Module ExcerptFacts.
Import Excerpt.

Lemma length_string_of_list (l : list ascii) :
  String.length (string_of_list_ascii l) = List.length l.
Proof. induction l as [|c l IH]; simpl; [reflexivity | rewrite IH; reflexivity]. Qed.

Lemma string_of_list_app (a b : list ascii) :
  string_of_list_ascii (a ++ b)%list = string_of_list_ascii a ++ string_of_list_ascii b.
Proof. induction a as [|c a IH]; simpl; [reflexivity | rewrite IH; reflexivity]. Qed.

Lemma dropTrailing_suffix (p : ascii -> bool) (l : list ascii) :
  exists suffix, l = (dropTrailing p l ++ suffix)%list /\ forallb p suffix = true.
Proof.
  induction l as [|c rest (suffix & Hsplit & Hall)]; simpl.
  - exists []. split; reflexivity.
  - destruct (dropTrailing p rest) as [|k kept] eqn:E.
    + simpl in Hsplit. subst suffix. destruct (p c) eqn:Hc.
      * exists (c :: rest). simpl. rewrite Hc, Hall. split; reflexivity.
      * exists rest. split; [reflexivity | exact Hall].
    + exists suffix. split; [|exact Hall]. simpl. f_equal. exact Hsplit.
Qed.

Lemma dropTrailing_last (p : ascii -> bool) (l : list ascii) (c : ascii) :
  lastChar (dropTrailing p l) = Some c -> p c = false.
Proof.
  induction l as [|c0 rest IH]; simpl; [discriminate|].
  destruct (dropTrailing p rest) as [|k kept] eqn:E.
  - destruct (p c0) eqn:Hc; simpl; [discriminate|].
    intros H; injection H as <-. exact Hc.
  - intros H. apply IH. exact H.
Qed.

Lemma dropTrailing_length (p : ascii -> bool) (l : list ascii) :
  List.length (dropTrailing p l) <= List.length l.
Proof.
  destruct (dropTrailing_suffix p l) as (suffix & Hsplit & _).
  rewrite Hsplit at 2. rewrite length_app. lia.
Qed.

Lemma skipn_nth_error (l : list ascii) (n : nat) (c : ascii) :
  nth_error l n = Some c -> exists rest, skipn n l = c :: rest.
Proof.
  revert l. induction n as [|n IH]; intros [|x l]; simpl; try discriminate.
  - intros H; injection H as ->. eauto.
  - apply IH.
Qed.

(** What is kept is a prefix of the text, no longer than asked, and the
    cut after it does not fall inside a word. *)
Lemma truncateWords_spec (text : list ascii) (maxLength : nat) :
  exists rest,
    text = (truncateWords text maxLength ++ rest)%list /\
    List.length (truncateWords text maxLength) <= maxLength /\
    splitsWordAt (truncateWords text maxLength) rest = false.
Proof.
  unfold truncateWords.
  destruct (Nat.leb (List.length text) maxLength) eqn:Hlen.
  - apply Nat.leb_le in Hlen. exists []. rewrite app_nil_r.
    repeat split; [exact Hlen|].
    unfold splitsWordAt. destruct (lastChar text); reflexivity.
  - apply Nat.leb_gt in Hlen.
    destruct (nth_error text maxLength) as [next|] eqn:Hnext.
    2: { apply nth_error_None in Hnext. lia. }
    destruct (skipn_nth_error _ _ _ Hnext) as (tail & Htail).
    pose proof (firstn_skipn maxLength text) as Hcut.
    pose proof (firstn_le_length maxLength text) as Hshort.
    destruct (isSpace next) eqn:Hsp.
    + exists (next :: tail). rewrite <- Htail.
      repeat split; [symmetry; exact Hcut | exact Hshort |].
      rewrite Htail. unfold splitsWordAt, isWordChar. rewrite Hsp.
      destruct (lastChar (firstn maxLength text)); [apply andb_false_r | reflexivity].
    + set (cut := firstn maxLength text) in *.
      destruct (dropTrailing_suffix isWordChar cut) as (word & Hword & _).
      destruct (dropTrailing_suffix isSpace (dropTrailing isWordChar cut))
        as (spaces & Hspaces & Hall).
      pose proof (dropTrailing_length isWordChar cut) as L1.
      pose proof (dropTrailing_length isSpace (dropTrailing isWordChar cut)) as L2.
      exists (spaces ++ word ++ skipn maxLength text)%list.
      repeat split.
      * rewrite <- Hcut at 1. rewrite Hword at 1. rewrite Hspaces at 1.
        rewrite <- !app_assoc. reflexivity.
      * lia.
      * unfold splitsWordAt.
        destruct (lastChar (dropTrailing isSpace (dropTrailing isWordChar cut)))
          as [a|] eqn:Hlast; [|reflexivity].
        destruct spaces as [|s spaces]; simpl.
        -- rewrite app_nil_r in Hspaces. rewrite <- Hspaces in Hlast.
           rewrite (dropTrailing_last _ _ _ Hlast).
           destruct (word ++ skipn maxLength text)%list; reflexivity.
        -- simpl in Hall. apply andb_true_iff in Hall as [Hs _].
           unfold isWordChar at 2. rewrite Hs. apply andb_false_r.
Qed.

End ExcerptFacts.

(** C2.  Whatever the body, the excerpt of at most 160 characters is at
    most 160 characters long, it is the beginning of the body's plain
    text, and where it stops the text is not cut inside a word. *)
Theorem excerpt_bounded_at_word_boundary (stripMarkup : string -> string) (rawBody : string) :
  let out := Excerpt.deriveExcerpt stripMarkup rawBody 160 in
  String.length out <= 160 /\
  exists rest,
    Excerpt.plainText stripMarkup rawBody = out ++ rest /\
    Excerpt.splitsWord out rest = false.
Proof.
  cbn zeta. unfold Excerpt.deriveExcerpt, Excerpt.splitsWord.
  set (text := list_ascii_of_string (Excerpt.plainText stripMarkup rawBody)).
  destruct (ExcerptFacts.truncateWords_spec text 160) as (rest & Hsplit & Hlen & Hcut).
  split.
  - rewrite ExcerptFacts.length_string_of_list. exact Hlen.
  - exists (string_of_list_ascii rest). split.
    + rewrite <- ExcerptFacts.string_of_list_app, <- Hsplit.
      unfold text. symmetry. apply string_of_list_ascii_of_string.
    + rewrite !list_ascii_of_string_of_list_ascii. exact Hcut.
Qed.

(** ** Slugs *)

Module IndexerFacts.
Import Indexer.




End IndexerFacts.




(** ** The displayed date *)

Module DisplayDateFacts.
Import DisplayDate.

Lemma length_append (a b : string) :
  String.length (a ++ b) = String.length a + String.length b.
Proof. induction a as [|c a IH]; simpl; [reflexivity | rewrite IH; reflexivity]. Qed.

Lemma zeroPad_length (width n : nat) : String.length (zeroPad width n) = width.
Proof.
  revert n. induction width as [|w IH]; intros n; simpl; [reflexivity|].
  rewrite length_append, IH. simpl. lia.
Qed.

Lemma list_of_append (a b : string) :
  list_ascii_of_string (a ++ b) = (list_ascii_of_string a ++ list_ascii_of_string b)%list.
Proof. induction a as [|c a IH]; simpl; [reflexivity | rewrite IH; reflexivity]. Qed.

Lemma digit_code (n : nat) : nat_of_ascii (digit n) = 48 + n mod 10.
Proof.
  unfold digit. apply nat_ascii_embedding.
  pose proof (Nat.mod_upper_bound n 10). lia.
Qed.

Lemma zeroPad_digits (width n : nat) :
  forallb isDigit (list_ascii_of_string (zeroPad width n)) = true.
Proof.
  revert n. induction width as [|w IH]; intros n; simpl; [reflexivity|].
  rewrite list_of_append, forallb_app, IH.
  cbn [list_ascii_of_string forallb andb].
  unfold isDigit. rewrite digit_code.
  pose proof (Nat.mod_upper_bound n 10).
  rewrite andb_true_r. apply andb_true_iff. split; apply Nat.leb_le; lia.
Qed.

Lemma zeroPad_value (width n : nat) : readDecimal (zeroPad width n) = n mod 10 ^ width.
Proof.
  unfold readDecimal. revert n. induction width as [|w IH]; intros n.
  - simpl. reflexivity.
  - cbn [zeroPad]. rewrite list_of_append, fold_left_app, IH.
    cbn [list_ascii_of_string fold_left]. rewrite digit_code.
    rewrite Nat.pow_succ_r'. rewrite Nat.Div0.mod_mul_r. lia.
Qed.

Lemma pattern_layout (d : Date) :
  formatDate "MMMM DD, YYYY" d =
  monthName d.(month) ++ " " ++ zeroPad 2 d.(day) ++ ", " ++ zeroPad 4 d.(year).
Proof. reflexivity. Qed.

End DisplayDateFacts.

(** C6.  With the described date resolver, the date shown in the header of
    a record's page is the record's date under "MMMM DD, YYYY": the full
    name of the month, a space, the day as two decimal digits, a comma and
    a space, and the year as four decimal digits. *)
Theorem header_date_display (stripMarkup render : string -> string) (scope : moduleScope)
    (site : SiteMetadata) (location : value) (r : ContentRecord) :
  DisplayDate.validDate r.(date) ->
  exists dd yyyy,
    fmap (fun page => (payloadOf page).(header).(headerDate))
      (BlogPostTemplate scope
         (resolve (T:=describedTransformer stripMarkup render) site (Some r)) location)
    = Ok (VStr (DisplayDate.monthName r.(date).(month) ++ " " ++ dd ++ ", " ++ yyyy)) /\
    DisplayDate.monthName r.(date).(month) ++ " " ++ dd ++ ", " ++ yyyy
    = DisplayDate.formatDate "MMMM DD, YYYY" r.(date) /\
    String.length dd = 2 /\
    forallb DisplayDate.isDigit (list_ascii_of_string dd) = true /\
    DisplayDate.readDecimal dd = r.(date).(day) /\
    String.length yyyy = 4 /\
    forallb DisplayDate.isDigit (list_ascii_of_string yyyy) = true /\
    DisplayDate.readDecimal yyyy = r.(date).(year).
Proof.
  intros [[Hd1 Hd2] Hy].
  exists (DisplayDate.zeroPad 2 r.(date).(day)), (DisplayDate.zeroPad 4 r.(date).(year)).
  destruct (page_of_found (T:=describedTransformer stripMarkup render) scope site location r)
    as (page & -> & Hp).
  unfold fmap, JS.bind, ret. rewrite Hp. cbn [header headerDate formatDate describedTransformer].
  rewrite <- DisplayDateFacts.pattern_layout.
  repeat apply conj.
  - reflexivity.
  - reflexivity.
  - apply DisplayDateFacts.zeroPad_length.
  - apply DisplayDateFacts.zeroPad_digits.
  - rewrite DisplayDateFacts.zeroPad_value. apply Nat.mod_small.
    change (10 ^ 2) with 100. lia.
  - apply DisplayDateFacts.zeroPad_length.
  - apply DisplayDateFacts.zeroPad_digits.
  - rewrite DisplayDateFacts.zeroPad_value. apply Nat.mod_small.
    change (10 ^ 4) with (100 * 100). exact Hy.
Qed.

Lemma header_date_display_witness :
  exists dd yyyy,
    fmap (fun page => (payloadOf page).(header).(headerDate))
      (BlogPostTemplate sampleScope (resolve (T:=sampleTransformer) sampleSite (Some reusePost))
         sampleLocation)
    = Ok (VStr (DisplayDate.monthName reusePost.(date).(month) ++ " " ++ dd ++ ", " ++ yyyy)) /\
    DisplayDate.monthName reusePost.(date).(month) ++ " " ++ dd ++ ", " ++ yyyy
    = DisplayDate.formatDate "MMMM DD, YYYY" reusePost.(date) /\
    String.length dd = 2 /\
    forallb DisplayDate.isDigit (list_ascii_of_string dd) = true /\
    DisplayDate.readDecimal dd = reusePost.(date).(day) /\
    String.length yyyy = 4 /\
    forallb DisplayDate.isDigit (list_ascii_of_string yyyy) = true /\
    DisplayDate.readDecimal yyyy = reusePost.(date).(year).
Proof.
  apply (header_date_display (fun s => s) (fun s => "<p>" ++ s ++ "</p>")
           sampleScope sampleSite sampleLocation reusePost).
  unfold DisplayDate.validDate. cbn [reusePost date day year]. lia.
Defined.

(** ** Runs on the sample content *)

Example format_cookie_jar_date :
  DisplayDate.formatDate "MMMM DD, YYYY" cookieJarPost.(date) = "February 06, 2021".
Proof. reflexivity. Qed.

Example excerpt_keeps_short_text :
  Excerpt.deriveExcerpt (fun s => s) reusePost.(rawBody) 160
  = "Let's take a look at the following program.".
Proof. reflexivity. Qed.

Example excerpt_drops_partial_word :
  Excerpt.deriveExcerpt (fun s => s) reusePost.(rawBody) 20 = "Let's take a look at".
Proof. reflexivity. Qed.

Example excerpt_drops_partial_word_and_space :
  Excerpt.deriveExcerpt (fun s => s) reusePost.(rawBody) 14 = "Let's take a".
Proof. reflexivity. Qed.

Example excerpt_of_one_long_word :
  Excerpt.deriveExcerpt (fun s => s) "netstat" 4 = "".
Proof. reflexivity. Qed.

Example description_of_plain_cookie_jar :
  seoDescription
    (BlogPostTemplate sampleScope
       (pageQuery (T:=sampleTransformer) sampleSite [plainCookieJarPost] "/cookie-jar/")
       sampleLocation)
  = Ok (Some (VStr "Go's standard HTTP library provides an interface to manage the storage of cookies in HTTP requests. If we provide a jar to http.Client, the jar is used to")).
Proof. reflexivity. Qed.

Example render_reuse_post :
  BlogPostTemplate sampleScope
    (pageQuery (T:=sampleTransformer) sampleSite [cookieJarPost; reusePost]
       "/how-to-reuse-http-connection-in-go/")
    sampleLocation
  = Ok samplePage.
Proof. reflexivity. Qed.

Example render_without_site :
  BlogPostTemplate sampleScope (VObj [("markdownRemark", VNull)]) sampleLocation
  = Throw (TypeError VUndefined "siteMetadata").
Proof. reflexivity. Qed.

Example lookup_finds_cookie_jar :
  getBySlug [reusePost; undescribedPost; cookieJarPost] cookieJarPost.(slug)
  = Some cookieJarPost.
Proof. reflexivity. Qed.

(** * Further properties of the component and its query *)

(** ** When the component returns a page *)

Lemma get_present (base : value) (key : string) :
  nullish base = false -> exists v, get base key = Ok v.
Proof.
  destruct base as [| |s|fields]; simpl; intros H; try discriminate; eauto.
  destruct (lookup fields key); eauto.
Qed.

(** X1.  The component returns a page exactly when the four objects it
    reads through are there: [data.markdownRemark], [data.site],
    [data.site.siteMetadata] and [post.frontmatter] can be read and the
    last two are neither [null] nor [undefined].  No other field is needed:
    a missing title, date, description, excerpt or html does not fault. *)
Theorem template_succeeds_iff (scope : moduleScope) (data location : value) :
  (exists page, BlogPostTemplate scope data location = Ok page) <->
  (exists post site sm fm,
      get data "markdownRemark" = Ok post /\
      get data "site" = Ok site /\
      get site "siteMetadata" = Ok sm /\
      get post "frontmatter" = Ok fm /\
      nullish sm = false /\
      nullish fm = false).
Proof.
  split.
  - intros (page & H). apply BlogPostTemplate_inv in H.
    destruct H as (post & site & sm & siteName & fm & name & desc & shown & dateText & html
                   & Hpost & Hsite & Hsm & Hname & Hfm & Htitle & _).
    exists post, site, sm, fm. repeat apply conj; try assumption.
    + exact (get_Ok_not_nullish _ _ _ Hname).
    + exact (get_Ok_not_nullish _ _ _ Htitle).
  - intros (post & site & sm & fm & Hpost & Hsite & Hsm & Hfm & Hsmp & Hfmp).
    pose proof (get_Ok_not_nullish _ _ _ Hfm) as Hpostp.
    destruct (get_present sm "title" Hsmp) as (siteName & Hname).
    destruct (get_present fm "title" Hfmp) as (name & Htitle).
    destruct (get_present fm "description" Hfmp) as (desc & Hdesc).
    destruct (get_present fm "date" Hfmp) as (dateText & Hdate).
    destruct (get_present post "excerpt" Hpostp) as (excerpt & Hexcerpt).
    destruct (get_present post "html" Hpostp) as (html & Hhtml).
    unfold BlogPostTemplate.
    rewrite Hpost; cbn [JS.bind]. rewrite Hsite; cbn [JS.bind].
    rewrite Hsm; cbn [JS.bind]. rewrite Hname; cbn [JS.bind].
    rewrite Hfm; cbn [JS.bind]. rewrite Htitle; cbn [JS.bind].
    rewrite Hdesc; cbn [JS.bind]. rewrite Hexcerpt. unfold or_else.
    destruct (truthy desc); cbn [JS.bind];
      rewrite Hdate; cbn [JS.bind]; rewrite Hhtml; cbn [JS.bind ret]; eauto.
Qed.

Lemma template_succeeds_iff_witness :
  exists page, BlogPostTemplate sampleScope bareData sampleLocation = Ok page.
Proof.
  apply (proj2 (template_succeeds_iff sampleScope bareData sampleLocation)).
  exists (VObj [("frontmatter", VObj [])]), (VObj [("siteMetadata", VObj [])]),
    (VObj []), (VObj []).
  repeat apply conj; reflexivity.
Defined.

(** X2.  Which read faults first.  The site title is read before the JSX
    is built, so a missing [site] or [siteMetadata] is reported even when
    the post is missing too; only with the site title read does a missing
    post, and after it a missing front-matter, surface. *)
Theorem template_fault_order (scope : moduleScope) (data location : value) :
  (nullish data = true ->
   BlogPostTemplate scope data location = Throw (TypeError data "markdownRemark")) /\
  (forall site,
      get data "site" = Ok site -> nullish site = true ->
      BlogPostTemplate scope data location = Throw (TypeError site "siteMetadata")) /\
  (forall site sm,
      get data "site" = Ok site -> get site "siteMetadata" = Ok sm -> nullish sm = true ->
      BlogPostTemplate scope data location = Throw (TypeError sm "title")) /\
  (forall site sm post,
      get data "site" = Ok site -> get site "siteMetadata" = Ok sm -> nullish sm = false ->
      get data "markdownRemark" = Ok post -> nullish post = true ->
      BlogPostTemplate scope data location = Throw (TypeError post "frontmatter")) /\
  (forall site sm post fm,
      get data "site" = Ok site -> get site "siteMetadata" = Ok sm -> nullish sm = false ->
      get data "markdownRemark" = Ok post -> get post "frontmatter" = Ok fm ->
      nullish fm = true ->
      BlogPostTemplate scope data location = Throw (TypeError fm "title")).
Proof.
  unfold BlogPostTemplate. repeat apply conj.
  - intros H. rewrite (get_nullish _ _ H). reflexivity.
  - intros site Hsite Hnull.
    destruct (get_present data "markdownRemark" (get_Ok_not_nullish _ _ _ Hsite))
      as (post & ->).
    cbn [JS.bind]. rewrite Hsite; cbn [JS.bind].
    rewrite (get_nullish _ _ Hnull). reflexivity.
  - intros site sm Hsite Hsm Hnull.
    destruct (get_present data "markdownRemark" (get_Ok_not_nullish _ _ _ Hsite))
      as (post & ->).
    cbn [JS.bind]. rewrite Hsite; cbn [JS.bind]. rewrite Hsm; cbn [JS.bind].
    rewrite (get_nullish _ _ Hnull). reflexivity.
  - intros site sm post Hsite Hsm Hsmp Hpost Hnull.
    destruct (get_present sm "title" Hsmp) as (siteName & Hname).
    rewrite Hpost; cbn [JS.bind]. rewrite Hsite; cbn [JS.bind].
    rewrite Hsm; cbn [JS.bind]. rewrite Hname; cbn [JS.bind].
    rewrite (get_nullish _ _ Hnull). reflexivity.
  - intros site sm post fm Hsite Hsm Hsmp Hpost Hfm Hnull.
    destruct (get_present sm "title" Hsmp) as (siteName & Hname).
    rewrite Hpost; cbn [JS.bind]. rewrite Hsite; cbn [JS.bind].
    rewrite Hsm; cbn [JS.bind]. rewrite Hname; cbn [JS.bind].
    rewrite Hfm; cbn [JS.bind].
    rewrite (get_nullish _ _ Hnull). reflexivity.
Qed.

Lemma template_fault_order_witness :
  BlogPostTemplate sampleScope VUndefined sampleLocation
  = Throw (TypeError VUndefined "markdownRemark") /\
  BlogPostTemplate sampleScope (VObj [("site", VNull); ("markdownRemark", VNull)])
    sampleLocation
  = Throw (TypeError VNull "siteMetadata") /\
  BlogPostTemplate sampleScope (VObj [("site", VObj []); ("markdownRemark", VNull)])
    sampleLocation
  = Throw (TypeError VUndefined "title") /\
  BlogPostTemplate sampleScope
    (VObj [("site", VObj [("siteMetadata", VObj [])]); ("markdownRemark", VNull)])
    sampleLocation
  = Throw (TypeError VNull "frontmatter") /\
  BlogPostTemplate sampleScope
    (VObj [("site", VObj [("siteMetadata", VObj [])]); ("markdownRemark", VObj [])])
    sampleLocation
  = Throw (TypeError VUndefined "title").
Proof.
  repeat apply conj.
  - apply (proj1 (template_fault_order sampleScope VUndefined sampleLocation)).
    reflexivity.
  - apply (proj1 (proj2 (template_fault_order sampleScope
                           (VObj [("site", VNull); ("markdownRemark", VNull)])
                           sampleLocation)) VNull); reflexivity.
  - apply (proj1 (proj2 (proj2 (template_fault_order sampleScope
                                  (VObj [("site", VObj []); ("markdownRemark", VNull)])
                                  sampleLocation))) (VObj []) VUndefined); reflexivity.
  - apply (proj1 (proj2 (proj2 (proj2 (template_fault_order sampleScope
             (VObj [("site", VObj [("siteMetadata", VObj [])]); ("markdownRemark", VNull)])
             sampleLocation)))) (VObj [("siteMetadata", VObj [])]) (VObj []) VNull);
      reflexivity.
  - apply (proj2 (proj2 (proj2 (proj2 (template_fault_order sampleScope
             (VObj [("site", VObj [("siteMetadata", VObj [])]); ("markdownRemark", VObj [])])
             sampleLocation)))) (VObj [("siteMetadata", VObj [])]) (VObj []) (VObj [])
             VUndefined);
      reflexivity.
Defined.

(** ** The slug filter *)

(** X3.  The slug filter returns only a record of the index that carries
    the requested slug, and it returns nothing exactly when no record of
    the index carries it. *)
Theorem getBySlug_sound_complete (records : list ContentRecord) (s : string) :
  (forall r, getBySlug records s = Some r -> In r records /\ r.(slug) = s) /\
  (getBySlug records s = None <-> forall r, In r records -> r.(slug) <> s).
Proof.
  unfold getBySlug. split; [|split].
  - intros r H. apply find_some in H as [Hin Heq].
    split; [exact Hin | apply String.eqb_eq; exact Heq].
  - intros H r Hin Heq.
    pose proof (find_none _ _ H r Hin) as Hne. cbn beta in Hne.
    apply String.eqb_neq in Hne. contradiction.
  - apply getBySlug_none.
Qed.

Lemma getBySlug_sound_complete_witness :
  (In reusePost [cookieJarPost; reusePost] /\
   reusePost.(slug) = "/how-to-reuse-http-connection-in-go/") /\
  getBySlug [cookieJarPost; reusePost] "/no-such-post/" = None.
Proof.
  split.
  - apply (proj1 (getBySlug_sound_complete [cookieJarPost; reusePost]
                    "/how-to-reuse-http-connection-in-go/") reusePost).
    reflexivity.
  - apply (proj2 (proj2 (getBySlug_sound_complete [cookieJarPost; reusePost]
                           "/no-such-post/"))).
    intros r [<- | [<- | []]]; discriminate.
Defined.

(** X4.  Query and component together: a page is built for a slug exactly
    when some record of the index carries that slug. *)
Theorem page_built_iff_slug_indexed {T : Transformer} (scope : moduleScope)
    (site : SiteMetadata) (records : list ContentRecord) (s : string) (location : value) :
  (exists page, BlogPostTemplate scope (pageQuery site records s) location = Ok page) <->
  (exists r, In r records /\ r.(slug) = s).
Proof.
  unfold pageQuery. split.
  - intros (page & H). destruct (getBySlug records s) as [r|] eqn:E.
    + exists r. unfold getBySlug in E. apply find_some in E as [Hin Heq].
      split; [exact Hin | apply String.eqb_eq; exact Heq].
    + rewrite render_missing in H. discriminate H.
  - intros (r & Hin & Hslug). destruct (getBySlug records s) as [r'|] eqn:E.
    + destruct (page_of_found scope site location r') as (page & Hrun & _). eauto.
    + exfalso. unfold getBySlug in E.
      pose proof (find_none _ _ E r Hin) as Hne. cbn beta in Hne.
      apply String.eqb_neq in Hne. contradiction.
Qed.

Lemma page_built_iff_slug_indexed_witness :
  exists page,
    BlogPostTemplate sampleScope
      (pageQuery (T:=sampleTransformer) sampleSite [cookieJarPost; reusePost]
         "/how-to-reuse-http-connection-in-go/")
      sampleLocation = Ok page.
Proof.
  apply (proj2 (page_built_iff_slug_indexed (T:=sampleTransformer) sampleScope sampleSite
                  [cookieJarPost; reusePost] "/how-to-reuse-http-connection-in-go/"
                  sampleLocation)).
  exists reusePost. split; [right; left; reflexivity | reflexivity].
Defined.

(** ** What the component passes through *)

(** X5.  The component does not format the date: the text of the header's
    paragraph is the value of [post.frontmatter.date] as the query
    delivered it, whatever that value is. *)
Theorem header_date_verbatim (scope : moduleScope) (data location : value) (page : element) :
  BlogPostTemplate scope data location = Ok page ->
  exists post fm,
    get data "markdownRemark" = Ok post /\
    get post "frontmatter" = Ok fm /\
    get fm "date" = Ok (payloadOf page).(header).(headerDate).
Proof.
  intros H. apply BlogPostTemplate_inv in H.
  destruct H as (post & site & sm & siteName & fm & name & desc & shown & dateText & html
                 & Hpost & _ & _ & _ & Hfm & _ & _ & _ & Hdate & _ & ->).
  exists post, fm. repeat apply conj; assumption.
Qed.

Lemma header_date_verbatim_witness :
  exists post fm,
    get (resolve (T:=sampleTransformer) sampleSite (Some reusePost)) "markdownRemark" = Ok post /\
    get post "frontmatter" = Ok fm /\
    get fm "date" = Ok (VStr "April 07, 2021").
Proof.
  apply (header_date_verbatim sampleScope
           (resolve (T:=sampleTransformer) sampleSite (Some reusePost))
           sampleLocation samplePage).
  reflexivity.
Defined.



(** X7.  The query selects [id] and filters on the slug, but the component
    reads neither: two records that agree on title, date, description and
    body render to the same element. *)
Theorem id_and_slug_not_rendered {T : Transformer} (scope : moduleScope)
    (site : SiteMetadata) (location : value) (r1 r2 : ContentRecord) :
  r1.(title) = r2.(title) ->
  r1.(date) = r2.(date) ->
  r1.(description) = r2.(description) ->
  r1.(rawBody) = r2.(rawBody) ->
  BlogPostTemplate scope (resolve site (Some r1)) location =
  BlogPostTemplate scope (resolve site (Some r2)) location.
Proof.
  intros Ht Hd Hdesc Hb.
  unfold BlogPostTemplate, resolve, selectPost. cbn.
  rewrite Ht, Hd, Hdesc, Hb. reflexivity.
Qed.

Lemma id_and_slug_not_rendered_witness :
  BlogPostTemplate sampleScope
    (resolve (T:=sampleTransformer) sampleSite (Some cookieJarPost)) sampleLocation =
  BlogPostTemplate sampleScope
    (resolve (T:=sampleTransformer) sampleSite (Some (nth 0 sampleRecords reusePost)))
    sampleLocation.
Proof.
  apply (id_and_slug_not_rendered (T:=sampleTransformer) sampleScope sampleSite sampleLocation
           cookieJarPost (nth 0 sampleRecords reusePost)); reflexivity.
Defined.

(** X8.  The section that carries the injected markup has
    [dangerouslySetInnerHTML] as its only prop and no children, and the
    [SEO] element and the footer have no children either. *)
Theorem injected_section_has_no_children (scope : moduleScope) (data location : value)
    (page : element) :
  BlogPostTemplate scope data location = Ok page ->
  exists html seoProps,
    child (Host "section") (childrenOf (child (Host "article") (childrenOf page)))
    = Element (Host "section") [("dangerouslySetInnerHTML", VObj [("__html", html)])] [] /\
    child SEO (childrenOf page) = Element SEO seoProps [] /\
    child (Host "footer") (childrenOf (child (Host "article") (childrenOf page)))
    = Element (Host "footer") [] [].
Proof.
  unfold BlogPostTemplate.
  repeat match goal with
         | |- context [JS.bind (get ?base ?key) _] =>
             destruct (get base key) eqn:?; cbn [JS.bind]; [|discriminate]
         | |- context [JS.bind (or_else ?a ?b) _] =>
             destruct (or_else a b) eqn:?; cbn [JS.bind]; [|discriminate]
         end.
  intros H. injection H as <-. do 2 eexists. repeat apply conj; reflexivity.
Qed.

Lemma injected_section_has_no_children_witness :
  exists html seoProps,
    child (Host "section") (childrenOf (child (Host "article") (childrenOf samplePage)))
    = Element (Host "section") [("dangerouslySetInnerHTML", VObj [("__html", html)])] [] /\
    child SEO (childrenOf samplePage) = Element SEO seoProps [] /\
    child (Host "footer") (childrenOf (child (Host "article") (childrenOf samplePage)))
    = Element (Host "footer") [] [].
Proof.
  apply (injected_section_has_no_children sampleScope
           (resolve (T:=sampleTransformer) sampleSite (Some reusePost))
           sampleLocation samplePage).
  reflexivity.
Defined.

(** X9.  The [||] on arbitrary query data: the description given to [SEO]
    is the front-matter description when that is truthy, and otherwise the
    value of [post.excerpt], whatever it is; when both are missing the page
    is still produced, with an [undefined] description. *)
Theorem seo_description_or_excerpt (scope : moduleScope) (data location : value)
    (page : element) :
  BlogPostTemplate scope data location = Ok page ->
  exists post fm desc shown,
    get data "markdownRemark" = Ok post /\
    get post "frontmatter" = Ok fm /\
    get fm "description" = Ok desc /\
    lookup (payloadOf page).(seo) "description" = Some shown /\
    ((truthy desc = true /\ shown = desc) \/
     (truthy desc = false /\ get post "excerpt" = Ok shown)).
Proof.
  intros H. apply BlogPostTemplate_inv in H.
  destruct H as (post & site & sm & siteName & fm & name & desc & shown & dateText & html
                 & Hpost & _ & _ & _ & Hfm & _ & Hdesc & Hshown & _ & _ & ->).
  exists post, fm, desc, shown. repeat apply conj; try assumption; [reflexivity|].
  unfold or_else in Hshown. destruct (truthy desc).
  - left. split; [reflexivity | congruence].
  - right. split; [reflexivity | exact Hshown].
Qed.

Lemma seo_description_or_excerpt_witness :
  exists post fm desc shown,
    get bareData "markdownRemark" = Ok post /\
    get post "frontmatter" = Ok fm /\
    get fm "description" = Ok desc /\
    lookup (payloadOf barePage).(seo) "description" = Some shown /\
    ((truthy desc = true /\ shown = desc) \/
     (truthy desc = false /\ get post "excerpt" = Ok shown)).
Proof.
  apply (seo_description_or_excerpt sampleScope bareData sampleLocation barePage).
  reflexivity.
Defined.

(** X10.  The page built for a slug shows a record that carries that slug:
    its titles, description, date and body are those of one record of the
    index whose slug is the requested one. *)
Theorem page_shows_record_of_slug {T : Transformer} (scope : moduleScope)
    (site : SiteMetadata) (records : list ContentRecord) (s : string) (location : value)
    (page : element) :
  BlogPostTemplate scope (pageQuery site records s) location = Ok page ->
  exists r,
    In r records /\ r.(slug) = s /\
    BlogPostTemplate scope (resolve site (Some r)) location = Ok page /\
    lookup (payloadOf page).(seo) "title" = Some (VStr r.(title)) /\
    (payloadOf page).(header).(headerTitle) = VStr r.(title) /\
    (payloadOf page).(header).(headerDate) = VStr (formatDate "MMMM DD, YYYY" r.(date)) /\
    (payloadOf page).(bodyHtml) = VStr (renderHtml r.(rawBody)).
Proof.
  unfold pageQuery. intros H.
  destruct (getBySlug records s) as [r|] eqn:E.
  - exists r. unfold getBySlug in E. apply find_some in E as [Hin Heq].
    apply String.eqb_eq in Heq.
    destruct (page_of_found scope site location r) as (page' & Hrun & Hp).
    assert (page' = page) as -> by congruence.
    rewrite Hp. repeat apply conj; try assumption; reflexivity.
  - rewrite render_missing in H. discriminate H.
Qed.

Lemma page_shows_record_of_slug_witness :
  exists r,
    In r [cookieJarPost; reusePost] /\
    r.(slug) = "/how-to-reuse-http-connection-in-go/" /\
    BlogPostTemplate sampleScope (resolve (T:=sampleTransformer) sampleSite (Some r))
      sampleLocation = Ok samplePage /\
    lookup (payloadOf samplePage).(seo) "title" = Some (VStr r.(title)) /\
    (payloadOf samplePage).(header).(headerTitle) = VStr r.(title) /\
    (payloadOf samplePage).(header).(headerDate)
    = VStr (formatDate (Transformer:=sampleTransformer) "MMMM DD, YYYY" r.(date)) /\
    (payloadOf samplePage).(bodyHtml)
    = VStr (renderHtml (Transformer:=sampleTransformer) r.(rawBody)).
Proof.
  apply (page_shows_record_of_slug (T:=sampleTransformer) sampleScope sampleSite
           [cookieJarPost; reusePost] "/how-to-reuse-http-connection-in-go/"
           sampleLocation samplePage).
  reflexivity.
Defined.

Example render_bare_data :
  BlogPostTemplate sampleScope bareData sampleLocation = Ok barePage.
Proof. reflexivity. Qed.
